(** * Todo-List-App: the Flask handlers of [app.py] and their properties

    The development embeds the request handlers of [src/app.py] as
    functions in a small state-and-exception monad and proves the
    behavioural properties of the task API and of the assistant proxy.

    Conventions of the embedding:
    - a Python [str] is a [string]; characters are the code points below 256;
    - integers (ids, timestamps, status codes, counters) are [Z];
    - the [Todo] table is a finite map from the primary key to the row;
    - the parsed request body is a [json] value, so requests whose fields
      have an unexpected JSON type are part of the model;
    - a handler runs in a database session: writes go to the session's
      working copy and reach the committed table only through
      [session_commit]. *)

From Stdlib Require Import ZArith String Ascii List Sorted Permutation Lia.
From stdpp Require Import base option list sorting gmap fin_maps strings pretty.

Local Open Scope Z_scope.
#[local] Set Warnings "-register-all".

(** ** Python values and primitives *)

(** The value [request.get_json()] returns: a parsed JSON document.
    Numbers are the integral ones; [JObj] lists the items of a dict, each
    key once. *)
Inductive json : Type :=
  | JNull
  | JBool (b : bool)
  | JNum (n : Z)
  | JStr (s : string)
  | JArr (items : list json)
  | JObj (fields : list (string * json)).

Module Py.

(** [str.isspace] on the code points below 256: TAB..CR, FS..US, the
    space, NEL and the no-break space. *)
Definition isspace (c : ascii) : bool :=
  let n := Z.of_N (N_of_ascii c) in
  ((9 <=? n) && (n <=? 13)) || ((28 <=? n) && (n <=? 32))
  || (n =? 133) || (n =? 160).

Fixpoint lstrip (s : string) : string :=
  match s with
  | EmptyString => EmptyString
  | String c s' => if isspace c then lstrip s' else s
  end.

Fixpoint rstrip (s : string) : string :=
  match s with
  | EmptyString => EmptyString
  | String c s' =>
      match rstrip s' with
      | EmptyString => if isspace c then EmptyString else String c EmptyString
      | r => String c r
      end
  end.

(** [s.strip()] *)
Definition strip (s : string) : string := rstrip (lstrip s).

(** [sub in s] for two strings. *)
Fixpoint contains (sub s : string) : bool :=
  String.prefix sub s ||
  match s with
  | EmptyString => false
  | String _ s' => contains sub s'
  end.

(** [d.get(key)] on the fields of a dict. *)
Fixpoint lookup (key : string) (fields : list (string * json)) : option json :=
  match fields with
  | [] => None
  | (k, v) :: rest => if decide (k = key) then Some v else lookup key rest
  end.

Definition is_str (key : string) (v : json) : bool :=
  match v with
  | JStr s => bool_decide (s = key)
  | _ => false
  end.

(** [bool(v)]: the truth value of a parsed JSON value. *)
Definition truthy (v : json) : bool :=
  match v with
  | JNull => false
  | JBool b => b
  | JNum n => negb (n =? 0)
  | JStr s => negb (bool_decide (s = EmptyString))
  | JArr items => negb (bool_decide (items = []))
  | JObj fields => negb (bool_decide (fields = []))
  end.

(** [sum(...)] of a sequence of integers. *)
Definition sum (l : list Z) : Z := fold_left Z.add l 0.

(** [len(l)] *)
Definition len {A} (l : list A) : Z := Z.of_nat (length l).

End Py.

(** What the handlers leave to the platform: [str()] of a value that is
    not a string (inside an f-string), and how the database driver stores
    a value that is not a string in a text column ([None] when it refuses
    the parameter). Strings go through unchanged, see [format_value] and
    [bind_text]. *)
Class Platform := {
  str_other : json → string;
  bind_other : json → option string
}.

Definition format_value `{Platform} (v : json) : string :=
  match v with
  | JStr s => s
  | _ => str_other v
  end.

Definition bind_text `{Platform} (v : json) : option string :=
  match v with
  | JStr s => Some s
  | _ => bind_other v
  end.

(** ** Exceptions, responses and the handler monad *)

Inductive exn : Type :=
  | NotFound          (* werkzeug.exceptions.NotFound, from get_or_404 *)
  | BadRequest        (* request.get_json() on a body that is not JSON *)
  | AttributeError
  | TypeError
  | DBAPIError        (* a sqlalchemy.exc.SQLAlchemyError *)
  | UpstreamError (msg : string).  (* raised by the generative model *)

Definition is_SQLAlchemyError (e : exn) : bool :=
  match e with
  | DBAPIError => true
  | _ => false
  end.

Inductive outcome (A : Type) : Type :=
  | Ok (a : A)
  | Raise (e : exn).
Arguments Ok {A} a.
Arguments Raise {A} e.

(** A computation over a state [S] that returns or raises. *)
Definition M (S A : Type) : Type := S → outcome A * S.

Definition ret {S A} (a : A) : M S A := λ s, (Ok a, s).

Definition raise {S A} (e : exn) : M S A := λ s, (Raise e, s).

Definition bind {S A B} (m : M S A) (k : A → M S B) : M S B := λ s,
  match m s with
  | (Ok a, s') => k a s'
  | (Raise e, s') => (Raise e, s')
  end.

(** [try: body except Exception as e: handler e] *)
Definition try_except {S A} (body : M S A) (handler : exn → M S A) : M S A := λ s,
  match body s with
  | (Ok a, s') => (Ok a, s')
  | (Raise e, s') => handler e s'
  end.

Notation "x <- m ;; k" := (bind m (λ x, k))
  (at level 100, m at next level, right associativity).
Notation "m ;;; k" := (bind m (λ _, k))
  (at level 100, right associativity).

(** Python operations that raise on a value of the wrong type. *)
Section PyOps.
Context {S : Type}.

(** [request.get_json()]; [None] is a request without a JSON body. *)
Definition get_json (body : option json) : M S json :=
  match body with
  | Some data => ret data
  | None => raise BadRequest
  end.

(** [data.get(key, default)]: only a dict has [get]. *)
Definition py_get (data : json) (key : string) (default : json) : M S json :=
  match data with
  | JObj fields => ret (from_option id default (Py.lookup key fields))
  | _ => raise AttributeError
  end.

(** [v.strip()]: only a string has [strip]. *)
Definition py_strip (v : json) : M S string :=
  match v with
  | JStr s => ret (Py.strip s)
  | _ => raise AttributeError
  end.

(** [key in data]: key membership for a dict, element membership for a
    list, substring test for a string, [TypeError] otherwise. *)
Definition py_in (key : string) (data : json) : M S bool :=
  match data with
  | JObj fields => ret (bool_decide (is_Some (Py.lookup key fields)))
  | JArr items => ret (existsb (Py.is_str key) items)
  | JStr s => ret (Py.contains key s)
  | _ => raise TypeError
  end.

End PyOps.

(** [v in [k1, k2, ...]] for a list of string literals. *)
Definition py_in_list (v : json) (keys : list string) : bool :=
  existsb (λ k, Py.is_str k v) keys.

(** ** Data model *)

(** A row of the [Todo] table; the primary key [id] is the key of the
    table. [created_at] is the UTC clock reading in microseconds. The
    columns are declared [String(200)] and [String(20)]; SQLite, the
    configured database, keeps a text of any length in them. *)
Record Todo : Type := {
  content : string;
  priority : string;
  created_at : Z
}.

Global Instance Todo_eq_dec : EqDecision Todo.
Proof. solve_decision. Defined.

Abbreviation table := (gmap Z Todo).

(** The key SQLite gives the next row of an INTEGER PRIMARY KEY table:
    one more than the largest key in use. *)
Definition next_id (t : table) : Z :=
  1 + foldr Z.max 0 (map_to_list t).*1.

(** A database session: the committed table and the working copy the
    handler reads and writes. *)
Record session : Type := {
  committed : table;
  working : table
}.

Definition begin (db : table) : session :=
  {| committed := db; working := db |}.

(** [Todo.query.get_or_404(todo_id)], for ids in SQLite's 64-bit range (a
    larger id in the path makes the driver raise instead of finding no
    row). *)
Definition get_or_404 (todo_id : Z) : M session Todo := λ s,
  match working s !! todo_id with
  | Some todo => (Ok todo, s)
  | None => (Raise NotFound, s)
  end.

(** [db.session.add(Todo(content=..., priority=...))]: the INSERT that the
    ORM sends when the session is flushed. The row gets the next key and
    the column default [datetime.utcnow] for [created_at]; the statement
    fails when the driver cannot bind the priority. Nothing runs between
    [add] and [commit] in the handler, so the flush is modelled here. *)
Definition session_add `{Platform} (now : Z) (c : string) (p : json)
    : M session (Z * Todo) := λ s,
  match bind_text p with
  | Some p' =>
      let i := next_id (working s) in
      let todo := {| content := c; priority := p'; created_at := now |} in
      (Ok (i, todo),
       {| committed := committed s; working := <[i := todo]> (working s) |})
  | None => (Raise DBAPIError, s)
  end.

(** [todo.content = new_content] *)
Definition set_content (todo_id : Z) (todo : Todo) (c : string) : M session Todo := λ s,
  let todo' := {| content := c; priority := priority todo;
                  created_at := created_at todo |} in
  (Ok todo', {| committed := committed s; working := <[todo_id := todo']> (working s) |}).

(** [todo.priority = priority] *)
Definition set_priority `{Platform} (todo_id : Z) (todo : Todo) (p : json)
    : M session Todo := λ s,
  match bind_text p with
  | Some p' =>
      let todo' := {| content := content todo; priority := p';
                      created_at := created_at todo |} in
      (Ok todo',
       {| committed := committed s; working := <[todo_id := todo']> (working s) |})
  | None => (Raise DBAPIError, s)
  end.

(** [db.session.delete(todo)] *)
Definition session_delete (todo_id : Z) : M session unit := λ s,
  (Ok tt, {| committed := committed s; working := delete todo_id (working s) |}).

(** [db.session.commit()] *)
Definition session_commit : M session unit := λ s,
  (Ok tt, {| committed := working s; working := working s |}).

(** [db.session.rollback()] *)
Definition session_rollback : M session unit := λ s,
  (Ok tt, {| committed := committed s; working := committed s |}).

(** ** Responses *)

Record statistics : Type := {
  total : Z;
  high_priority : Z;
  medium_priority : Z;
  low_priority : Z
}.

(** The JSON documents the handlers build. [ErrorOf e] is
    [{'error': str(e)}]. *)
Inductive payload : Type :=
  | TodoList (todos : list (Z * Todo)) (stats : statistics)
  | TodoCreated (id : Z) (c p : string)
  | TodoUpdated (id : Z) (c p : string) (at_ : Z)
  | Message (msg : string)
  | ErrorMsg (msg : string)
  | ErrorOf (e : exn)
  | Reply (text : string).

Record response : Type := {
  body : payload;
  status : Z
}.

(** [return jsonify(doc), code] *)
Definition jsonify (doc : payload) (code : Z) : response :=
  {| body := doc; status := code |}.

Definition client_error (r : response) : Prop := 400 ≤ status r < 500.

(** ** The handlers *)

(** *** [get_todos]: GET /api/todos *)

(** The CASE expression of the ORDER BY clause. *)
Definition priority_order (todo : Todo) : Z :=
  if decide (priority todo = "high") then 3
  else if decide (priority todo = "medium") then 2
  else if decide (priority todo = "low") then 1
  else 0.

(** [a] may come before [b] under
    [ORDER BY priority_order DESC, created_at DESC]. *)
Definition listed_before (a b : Z * Todo) : Prop :=
  priority_order b.2 < priority_order a.2
  ∨ (priority_order a.2 = priority_order b.2 ∧ created_at b.2 ≤ created_at a.2).

Global Instance listed_before_dec : RelDecision listed_before.
Proof. intros a b. unfold listed_before. apply _. Defined.

(** [Todo.query.order_by(priority_order.desc(), Todo.created_at.desc()).all()].
    SQL leaves the order of rows with equal rank and time open; the sort
    used here fixes one. *)
Definition query_ordered : M session (list (Z * Todo)) := λ s,
  (Ok (merge_sort listed_before (map_to_list (working s))), s).

(** [sum(1 for todo in todos if todo.priority == p)] *)
Definition count_priority (p : string) (todos : list (Z * Todo)) : Z :=
  Py.sum (map (λ _, 1) (filter (λ todo, priority todo.2 = p) todos)).

Definition get_todos : M session response :=
  try_except
    (todos <- query_ordered ;;
     let high := count_priority "high" todos in
     let medium := count_priority "medium" todos in
     let low := count_priority "low" todos in
     ret (jsonify
            (TodoList todos
               {| total := Py.len todos;
                  high_priority := high;
                  medium_priority := medium;
                  low_priority := low |})
            200))
    (λ e, if is_SQLAlchemyError e
          then ret (jsonify (ErrorOf e) 500)
          else raise e).

(** *** [add_todo]: POST /api/todos *)

Definition add_todo `{Platform} (now : Z) (req : option json) : M session response :=
  try_except
    (data <- get_json req ;;
     raw <- py_get data "content" (JStr "") ;;
     c <- py_strip raw ;;
     p <- py_get data "priority" (JStr "medium") ;;
     if decide (c = "") then
       ret (jsonify (ErrorMsg "Content is required") 400)
     else
       new_todo <- session_add now c p ;;
       session_commit ;;;
       ret (jsonify (TodoCreated new_todo.1 (content new_todo.2) (priority new_todo.2))
              201))
    (λ e, session_rollback ;;;
          ret (jsonify (ErrorOf e) 400)).

(** *** [delete_todo]: DELETE /api/todos/<int:todo_id> *)

Definition delete_todo (todo_id : Z) : M session response :=
  try_except
    (todo <- get_or_404 todo_id ;;
     session_delete todo_id ;;;
     session_commit ;;;
     ret (jsonify (Message "Todo deleted successfully") 200))
    (λ e, session_rollback ;;;
          ret (jsonify (ErrorOf e) 400)).

(** *** [update_todo]: PUT /api/todos/<int:todo_id> *)

(** The last statements of the handler: commit and answer. *)
Definition update_finish (todo_id : Z) (todo : Todo) : M session response :=
  session_commit ;;;
  ret (jsonify (TodoUpdated todo_id (content todo) (priority todo) (created_at todo))
         200).

(** The handler from [if 'priority' in data:] on. *)
Definition update_priority `{Platform} (todo_id : Z) (todo : Todo) (data : json)
    : M session response :=
  has_priority <- py_in "priority" data ;;
  if has_priority : bool then
    p <- py_get data "priority" JNull ;;
    if negb (py_in_list p ["high"; "medium"; "low"]) then
      ret (jsonify (ErrorMsg "Invalid priority value") 400)
    else
      todo' <- set_priority todo_id todo p ;;
      update_finish todo_id todo'
  else
    update_finish todo_id todo.

(** The two [except] clauses of the handler. *)
Definition update_except (e : exn) : M session response :=
  if is_SQLAlchemyError e
  then session_rollback ;;; ret (jsonify (ErrorOf e) 500)
  else session_rollback ;;; ret (jsonify (ErrorOf e) 400).

Definition update_todo `{Platform} (todo_id : Z) (req : option json)
    : M session response :=
  try_except
    (todo <- get_or_404 todo_id ;;
     data <- get_json req ;;
     has_content <- py_in "content" data ;;
     if has_content : bool then
       raw <- py_get data "content" (JStr "") ;;
       new_content <- py_strip raw ;;
       if decide (new_content = "") then
         ret (jsonify (ErrorMsg "Content cannot be empty") 400)
       else
         todo' <- set_content todo_id todo new_content ;;
         update_priority todo_id todo' data
     else
       update_priority todo_id todo data)
    update_except.

(** *** Running a handler *)

(** The answer Flask gives for an exception that leaves the handler: an
    HTTP exception keeps its own code, anything else is a 500. *)
Definition unhandled (e : exn) : response :=
  match e with
  | NotFound => jsonify (ErrorOf e) 404
  | BadRequest => jsonify (ErrorOf e) 400
  | _ => jsonify (ErrorOf e) 500
  end.

(** The end of a request: the session is removed (Flask-SQLAlchemy's
    teardown), so only what was committed is kept. *)
Definition close_request (x : outcome response * session) : response * table :=
  match x with
  | (Ok r, s) => (r, committed s)
  | (Raise e, s) => (unhandled e, committed s)
  end.

(** One request against the database [db]: the handler runs in a fresh
    session over [db]. *)
Definition run_request (handler : M session response) (db : table) : response * table :=
  close_request (handler (begin db)).

(** *** [get_ai_response]: POST /api/assistant *)

(** The state of the assistant handler is the list of prompts sent to the
    external model, oldest first. *)
Definition generate_content (model : option (string → outcome string)) (prompt : string)
    : M (list string) string := λ sent,
  match model with
  | Some generate => (generate prompt, sent ++ [prompt])
  | None => (Raise AttributeError, sent)
  end.

Definition get_ai_response `{Platform} (GENAI_AVAILABLE : bool)
    (model : option (string → outcome string)) (req : option json)
    : M (list string) response :=
  try_except
    (if negb GENAI_AVAILABLE then
       ret (jsonify (ErrorMsg "AI assistant is not available") 503)
     else
       data <- get_json req ;;
       user_input <- py_get data "input" (JStr "") ;;
       if negb (Py.truthy user_input) then
         ret (jsonify (ErrorMsg "Empty input") 400)
       else
         let prompt :=
           "As a todo list assistant, help with this question: "
           +:+ format_value user_input in
         text <- generate_content model prompt ;;
         ret (jsonify (Reply text) 200))
    (λ e, ret (jsonify (ErrorOf e) 500)).

(** One assistant request: the response and the prompts that were sent. *)
Definition run_assistant (handler : M (list string) response) : response * list string :=
  match handler [] with
  | (Ok r, sent) => (r, sent)
  | (Raise e, sent) => (unhandled e, sent)
  end.

(** *** Startup: the configuration of the generative model *)

(** The [try] block that sets [GENAI_AVAILABLE] and [model] when the
    module is loaded. [GOOGLE_API_KEY] is the value of [os.getenv];
    [client key] stands for [genai.configure(api_key=key)] followed by
    [genai.GenerativeModel(...)], which returns the model or raises. The
    [ValueError] raised for a key that is missing or empty and every
    exception of the client end in the [except] clause. The result is the
    pair [(GENAI_AVAILABLE, model)]. *)
Definition configure_gemini (GOOGLE_API_KEY : option string)
    (client : string → outcome (string → outcome string))
    : bool * option (string → outcome string) :=
  match GOOGLE_API_KEY with
  | Some key =>
      if bool_decide (key = "") then (false, None)
      else match client key with
           | Ok model => (true, Some model)
           | Raise _ => (false, None)
           end
  | None => (false, None)
  end.

(** The assistant handler of an application started with this
    configuration. *)
Definition assistant `{Platform} (GOOGLE_API_KEY : option string)
    (client : string → outcome (string → outcome string)) (req : option json)
    : response * list string :=
  let '(available, model) := configure_gemini GOOGLE_API_KEY client in
  run_assistant (get_ai_response available model req).

(** *** The routes of the task API *)

(** A request to one of the four [/api/todos] routes. The [int] converter
    of the path accepts the natural numbers only; a create request comes
    with the clock reading of the moment it is handled. *)
Inductive request : Type :=
  | GET_todos
  | POST_todos (now : Z) (req : option json)
  | DELETE_todo (todo_id : N)
  | PUT_todo (todo_id : N) (req : option json).

(** The handler [app.route] selects. *)
Definition route `{Platform} (q : request) : M session response :=
  match q with
  | GET_todos => get_todos
  | POST_todos now req => add_todo now req
  | DELETE_todo todo_id => delete_todo (Z.of_N todo_id)
  | PUT_todo todo_id req => update_todo (Z.of_N todo_id) req
  end.

(** One request, and a sequence of requests, against the database. *)
Definition serve `{Platform} (q : request) (db : table) : response * table :=
  run_request (route q) db.

Definition serve_all `{Platform} (qs : list request) (db : table) : table :=
  foldl (λ db q, (serve q db).2) db qs.

(** ** A concrete platform

    CPython's [str()] and the sqlite3 driver behind SQLAlchemy, for running
    the handlers on concrete requests. The theorems below hold for every
    [Platform]; this one closes the examples. A string nested in a list or
    a dict is quoted without [repr]'s escapes. *)

Fixpoint py_repr (v : json) : string :=
  match v with
  | JNull => "None"
  | JBool b => if b then "True" else "False"
  | JNum n => pretty n
  | JStr s => "'" +:+ s +:+ "'"
  | JArr items =>
      "[" +:+ String.concat ", " (map py_repr items) +:+ "]"
  | JObj fields =>
      "{" +:+ String.concat ", "
                (map (λ kv, match kv with
                            | (k, x) => "'" +:+ k +:+ "': " +:+ py_repr x
                            end) fields)
          +:+ "}"
  end.

(** The ORM leaves a [None] attribute out of the INSERT, so the column
    default applies; sqlite3 stores a number that fits 64 bits in a text
    column as its decimal text and refuses larger numbers, lists and
    dicts. *)
Definition sqlite_bind (v : json) : option string :=
  match v with
  | JNull => Some "medium"
  | JBool b => Some (if b then "1" else "0")
  | JNum n =>
      if bool_decide (- 2 ^ 63 ≤ n < 2 ^ 63) then Some (pretty n) else None
  | JStr s => Some s
  | JArr _ | JObj _ => None
  end.

Definition cpython_sqlite : Platform :=
  {| str_other := py_repr; bind_other := sqlite_bind |}.

(** ** Vocabulary of the statements *)

(** *** The store invariant *)

Definition valid_task (todo : Todo) : Prop :=
  content todo ≠ "" ∧ priority todo ∈ ["high"; "medium"; "low"].

Definition store_ok (db : table) : Prop :=
  ∀ i todo, db !! i = Some todo → valid_task todo.

(** *** Trimming *)

(** Every character of [s] is whitespace. *)
Fixpoint all_space (s : string) : bool :=
  match s with
  | EmptyString => true
  | String c s' => Py.isspace c && all_space s'
  end.

(** A string that trimming leaves as it is. *)
Definition trimmed (s : string) : Prop := Py.strip s = s.

(** The invariant of the contents: non-empty and trimmed. *)
Definition contents_ok (db : table) : Prop :=
  ∀ i todo, db !! i = Some todo → content todo ≠ "" ∧ trimmed (content todo).

(** A request that is not a create request with a priority outside high,
    medium and low. *)
Definition checked_priority (q : request) : Prop :=
  match q with
  | POST_todos _ req =>
      ∀ fields p, req = Some (JObj fields) →
                  Py.lookup "priority" fields = Some p →
                  p ∈ [JStr "high"; JStr "medium"; JStr "low"]
  | _ => True
  end.

(** A request that does not delete the task [i]. *)
Definition keeps_task (i : Z) (q : request) : Prop :=
  match q with
  | DELETE_todo todo_id => Z.of_N todo_id ≠ i
  | _ => True
  end.

(** *** Updates *)

(** The request is a JSON object that has [v] under [key]. *)
Definition supplied (key : string) (req : option json) (v : json) : Prop :=
  ∃ fields, req = Some (JObj fields) ∧ Py.lookup key fields = Some v.

(** [t] is [todo] after an update by [req]: the creation time is kept, and
    the content and the priority are the old ones or validated values of
    the request. *)
Definition updated_by (req : option json) (todo t : Todo) : Prop :=
  created_at t = created_at todo
  ∧ (content t = content todo
     ∨ ∃ s, supplied "content" req (JStr s) ∧ content t = Py.strip s
            ∧ content t ≠ "")
  ∧ (priority t = priority todo
     ∨ supplied "priority" req (JStr (priority t))
       ∧ priority t ∈ ["high"; "medium"; "low"]).

(** The two ways an update of the task [todo] under [todo_id] ends: a 400
    that leaves the store as it was, or a 200 that reports the row it
    stored. *)
Definition update_result (db : table) (todo_id : Z) (todo : Todo)
    (req : option json) (x : response * table) : Prop :=
  (∃ e, x = (jsonify e 400, db))
  ∨ (∃ t, x = (jsonify (TodoUpdated todo_id (content t) (priority t) (created_at t))
                 200,
               <[todo_id := t]> db)
          ∧ updated_by req todo t).

(** *** Stores and requests of the examples *)

(** The four tasks of the ordering example, in the order of the answer. *)
Definition example_rows (i1 i2 i3 i4 : Z) (c1 c2 c3 c4 : string) (t1 t2 t3 t4 : Z)
    : list (Z * Todo) :=
  [ (i4, {| content := c4; priority := "high"; created_at := t4 |});
    (i2, {| content := c2; priority := "high"; created_at := t2 |});
    (i3, {| content := c3; priority := "medium"; created_at := t3 |});
    (i1, {| content := c1; priority := "low"; created_at := t1 |}) ].

(** A store holding four tasks with priorities low, high, medium, high,
    listed here in the order of their creation. *)
Definition example_store (i1 i2 i3 i4 : Z) (c1 c2 c3 c4 : string) (t1 t2 t3 t4 : Z)
    : table :=
  list_to_map
    [ (i1, {| content := c1; priority := "low"; created_at := t1 |});
      (i2, {| content := c2; priority := "high"; created_at := t2 |});
      (i3, {| content := c3; priority := "medium"; created_at := t3 |});
      (i4, {| content := c4; priority := "high"; created_at := t4 |}) ].

(** A store with one task, used in the examples. *)
Definition one_task : table :=
  {[ 1 := {| content := "write report"; priority := "low"; created_at := 5 |} ]}.

(** The requests of the examples: two creates, an update of the first
    task and the delete of the second. *)
Definition example_history : list request :=
  [ POST_todos 10 (Some (JObj [("content", JStr "  water plants ")]));
    POST_todos 20 (Some (JObj [("content", JStr "book flight");
                               ("priority", JStr "high")]));
    PUT_todo 1 (Some (JObj [("content", JStr " water the plants")]));
    DELETE_todo 2 ].

(** A content of [n] characters. *)
Definition content_of_length (n : nat) : string :=
  string_of_list_ascii (repeat "x"%char n).

(** *** The assistant *)

(** The fixed text in front of the question. *)
Definition prompt_prefix : string :=
  "As a todo list assistant, help with this question: ".

(** * Properties *)

(** ** Keys *)

Lemma foldr_max_ge (l : list Z) (x : Z) : x ∈ l → x ≤ foldr Z.max 0 l.
Proof.
  induction l as [|y l IH]; intros Hx.
  - by apply not_elem_of_nil in Hx.
  - apply elem_of_cons in Hx as [->|Hx]; simpl; [lia|].
    specialize (IH Hx). lia.
Qed.

Lemma next_id_fresh (t : table) : t !! next_id t = None.
Proof.
  destruct (t !! next_id t) as [todo|] eqn:E; [exfalso|done].
  apply elem_of_map_to_list in E.
  assert (next_id t ∈ (map_to_list t).*1) as Hin.
  { apply list_elem_of_fmap. by exists (next_id t, todo). }
  apply foldr_max_ge in Hin. unfold next_id in Hin at 1. lia.
Qed.

(** ** Trimming *)

Example strip_both_ends : Py.strip "  buy  milk	 " = "buy  milk".
Proof. reflexivity. Qed.

Lemma lstrip_empty (s : string) : Py.lstrip s = "" ↔ all_space s = true.
Proof.
  induction s as [|c s IH]; simpl; [done|].
  destruct (Py.isspace c); simpl; [exact IH|]. split; discriminate.
Qed.

Lemma rstrip_empty (s : string) : Py.rstrip s = "" ↔ all_space s = true.
Proof.
  induction s as [|c s IH]; simpl; [done|].
  destruct (Py.rstrip s) as [|c' r].
  - destruct (Py.isspace c); simpl.
    + split; [intros _; by apply IH|done].
    + split; discriminate.
  - split; [discriminate|]. intros Hs. apply andb_prop in Hs as [_ Hs].
    apply IH in Hs. discriminate Hs.
Qed.

Lemma lstrip_head (s : string) c r :
  Py.lstrip s = String c r → Py.isspace c = false.
Proof.
  induction s as [|c' s IH]; simpl; [discriminate|].
  destruct (Py.isspace c') eqn:E; [exact IH|]. by intros [= <- _].
Qed.

(** A string is empty after trimming exactly when it is made of
    whitespace only. *)
Lemma strip_empty (s : string) : Py.strip s = "" ↔ all_space s = true.
Proof.
  unfold Py.strip. rewrite rstrip_empty. split.
  - intros Hs. apply lstrip_empty. destruct (Py.lstrip s) as [|c r] eqn:E; [done|].
    apply lstrip_head in E. simpl in Hs. by rewrite E in Hs.
  - intros Hs. apply lstrip_empty in Hs. by rewrite Hs.
Qed.

(** ** The order of the list *)

Global Instance listed_before_total : Total listed_before.
Proof. intros a b. unfold listed_before. lia. Qed.

Global Instance listed_before_trans : Transitive listed_before.
Proof. intros a b c. unfold listed_before. lia. Qed.

Lemma StronglySorted_lookup {A} (R : relation A) (l : list A) i j a b :
  StronglySorted R l → (i < j)%nat → l !! i = Some a → l !! j = Some b → R a b.
Proof.
  intros Hs. revert i j. induction Hs as [|x l Hs IH Hall]; intros i j Hij Ha Hb.
  - by rewrite lookup_nil in Ha.
  - destruct j as [|j]; [lia|]. simpl in Hb. destruct i as [|i]; simpl in Ha.
    + injection Ha as ->. rewrite Forall_forall in Hall.
      apply Hall. eapply list_elem_of_lookup_2. exact Hb.
    + apply (IH i j); [lia|done..].
Qed.

Lemma get_todos_run (db : table) :
  run_request get_todos db =
    (let todos := merge_sort listed_before (map_to_list db) in
     jsonify
       (TodoList todos
          {| total := Py.len todos;
             high_priority := count_priority "high" todos;
             medium_priority := count_priority "medium" todos;
             low_priority := count_priority "low" todos |})
       200,
     db).
Proof. reflexivity. Qed.


Lemma example_rows_sorted i1 i2 i3 i4 c1 c2 c3 c4 t1 t2 t3 t4 :
  t1 < t2 → t2 < t3 → t3 < t4 →
  StronglySorted listed_before (example_rows i1 i2 i3 i4 c1 c2 c3 c4 t1 t2 t3 t4).
Proof.
  intros H12 H23 H34. unfold example_rows.
  repeat (apply SSorted_cons; [|repeat constructor]);
    try apply SSorted_nil; unfold listed_before, priority_order; simpl; lia.
Qed.

Lemma example_rows_antisym i1 i2 i3 i4 c1 c2 c3 c4 t1 t2 t3 t4 a b :
  t1 < t2 → t2 < t3 → t3 < t4 →
  a ∈ example_rows i1 i2 i3 i4 c1 c2 c3 c4 t1 t2 t3 t4 →
  b ∈ example_rows i1 i2 i3 i4 c1 c2 c3 c4 t1 t2 t3 t4 →
  listed_before a b → listed_before b a → a = b.
Proof.
  intros H12 H23 H34 Ha Hb. unfold example_rows in Ha, Hb.
  repeat (apply elem_of_cons in Ha as [->|Ha]);
    try (by apply not_elem_of_nil in Ha);
    repeat (apply elem_of_cons in Hb as [->|Hb]);
    try (by apply not_elem_of_nil in Hb);
    unfold listed_before, priority_order; simpl; intros; try reflexivity; lia.
Qed.

Lemma example_store_rows i1 i2 i3 i4 c1 c2 c3 c4 t1 t2 t3 t4 :
  NoDup [i1; i2; i3; i4] →
  map_to_list (example_store i1 i2 i3 i4 c1 c2 c3 c4 t1 t2 t3 t4)
  ≡ₚ example_rows i1 i2 i3 i4 c1 c2 c3 c4 t1 t2 t3 t4.
Proof.
  intros Hnd. unfold example_store. rewrite map_to_list_to_map by exact Hnd.
  unfold example_rows.
  match goal with |- [?a; ?b; ?c; ?d] ≡ₚ _ =>
    transitivity ([b; c; d] ++ [a]);
      [exact (Permutation_app_comm [a] [b; c; d])
      |exact (Permutation_app_tail [a] (Permutation_app_comm [b; c] [d]))]
  end.
Qed.

(** C1: the list operation answers 200 with every task of the store,
    ordered by priority rank descending (high 3, medium 2, low 1, anything
    else 0) and, within one rank, by [created_at] descending; four tasks
    with priorities low, high, medium, high created at increasing times
    are listed as high (later), high (earlier), medium, low. *)
Theorem get_todos_order :
  (∀ db : table, ∃ todos stats,
      run_request get_todos db = (jsonify (TodoList todos stats) 200, db)
      ∧ todos ≡ₚ map_to_list db
      ∧ ∀ (i j : nat) a b,
          (i < j)%nat → todos !! i = Some a → todos !! j = Some b →
          priority_order b.2 < priority_order a.2
          ∨ (priority_order a.2 = priority_order b.2
             ∧ created_at b.2 ≤ created_at a.2))
  ∧ (∀ todo : Todo,
      (priority todo = "high" → priority_order todo = 3)
      ∧ (priority todo = "medium" → priority_order todo = 2)
      ∧ (priority todo = "low" → priority_order todo = 1)
      ∧ (priority todo ∉ ["high"; "medium"; "low"] → priority_order todo = 0))
  ∧ (∀ i1 i2 i3 i4 c1 c2 c3 c4 t1 t2 t3 t4,
      NoDup [i1; i2; i3; i4] → t1 < t2 → t2 < t3 → t3 < t4 →
      ∃ stats,
        (run_request get_todos
           (example_store i1 i2 i3 i4 c1 c2 c3 c4 t1 t2 t3 t4)).1
        = jsonify
            (TodoList (example_rows i1 i2 i3 i4 c1 c2 c3 c4 t1 t2 t3 t4) stats)
            200).
Proof.
  split; [|split].
  - intros db. rewrite get_todos_run. cbv zeta. do 2 eexists.
    split; [reflexivity|]. split; [apply merge_sort_Permutation|].
    intros i j a b Hij Ha Hb.
    eapply (StronglySorted_lookup listed_before);
      [|exact Hij|exact Ha|exact Hb].
    apply StronglySorted_merge_sort; apply _.
  - intros todo. unfold priority_order.
    repeat split; intros Hp.
    + by rewrite decide_True.
    + rewrite Hp. reflexivity.
    + rewrite Hp. reflexivity.
    + repeat (rewrite decide_False; [|intros E; apply Hp; rewrite E;
                                      repeat constructor]).
      reflexivity.
  - intros i1 i2 i3 i4 c1 c2 c3 c4 t1 t2 t3 t4 Hnd H12 H23 H34.
    rewrite get_todos_run. cbv zeta. simpl. eexists.
    assert (merge_sort listed_before
              (map_to_list (example_store i1 i2 i3 i4 c1 c2 c3 c4 t1 t2 t3 t4))
            = example_rows i1 i2 i3 i4 c1 c2 c3 c4 t1 t2 t3 t4) as ->;
      [|reflexivity].
    assert (merge_sort listed_before
              (map_to_list (example_store i1 i2 i3 i4 c1 c2 c3 c4 t1 t2 t3 t4))
            ≡ₚ example_rows i1 i2 i3 i4 c1 c2 c3 c4 t1 t2 t3 t4) as Hperm.
    { rewrite merge_sort_Permutation. by apply example_store_rows. }
    apply (StronglySorted_unique_strong listed_before); try done.
    + intros a b Ha Hb. rewrite Hperm in Ha.
      by apply (example_rows_antisym i1 i2 i3 i4 c1 c2 c3 c4 t1 t2 t3 t4).
    + apply StronglySorted_merge_sort; apply _.
    + by apply example_rows_sorted.
Qed.

Lemma get_todos_order_witness :
  ∃ stats,
    (run_request get_todos (example_store 1 2 3 4 "a" "b" "c" "d" 10 20 30 40)).1
    = jsonify (TodoList (example_rows 1 2 3 4 "a" "b" "c" "d" 10 20 30 40) stats) 200.
Proof.
  apply (proj2 (proj2 get_todos_order) 1 2 3 4 "a" "b" "c" "d" 10 20 30 40)%string.
  - repeat (apply NoDup_cons_2; [rewrite ?elem_of_cons, elem_of_nil; lia|]).
    apply NoDup_nil_2.
  - lia.
  - lia.
  - lia.
Defined.

(** ** Statistics *)

Lemma fold_left_add_ones {A} (l : list A) (acc : Z) :
  fold_left Z.add (map (λ _, 1) l) acc = acc + Z.of_nat (length l).
Proof.
  revert acc. induction l as [|x l IH]; intros acc; simpl.
  - lia.
  - rewrite IH. lia.
Qed.

Lemma count_priority_length (p : string) (todos : list (Z * Todo)) :
  count_priority p todos
  = Z.of_nat (length (filter (λ todo, priority todo.2 = p) todos)).
Proof. unfold count_priority, Py.sum. rewrite fold_left_add_ones. lia. Qed.

Lemma count_priority_partition (todos : list (Z * Todo)) :
  Forall (λ todo, priority todo.2 ∈ ["high"; "medium"; "low"]) todos →
  Py.len todos
  = count_priority "high" todos + count_priority "medium" todos
    + count_priority "low" todos.
Proof.
  rewrite !count_priority_length. unfold Py.len.
  induction 1 as [|todo todos Hp _ IH]; [reflexivity|].
  rewrite !filter_cons. cbn [length]. rewrite Nat2Z.inj_succ, IH.
  repeat (apply elem_of_cons in Hp as [->|Hp]);
    [..|by apply not_elem_of_nil in Hp];
    repeat case_decide; try done; cbn [length]; lia.
Qed.

(** C6: in a successful list response each per-priority counter is the
    number of returned tasks with that priority, and when every task of
    the store has one of the three priorities the total is the sum of the
    three counters. *)
Theorem get_todos_statistics (db : table) :
  ∃ todos stats,
    run_request get_todos db = (jsonify (TodoList todos stats) 200, db)
    ∧ high_priority stats
      = Z.of_nat (length (filter (λ todo, priority todo.2 = "high") todos))
    ∧ medium_priority stats
      = Z.of_nat (length (filter (λ todo, priority todo.2 = "medium") todos))
    ∧ low_priority stats
      = Z.of_nat (length (filter (λ todo, priority todo.2 = "low") todos))
    ∧ ((∀ i todo, db !! i = Some todo →
          priority todo ∈ ["high"; "medium"; "low"]) →
       total stats
       = high_priority stats + medium_priority stats + low_priority stats).
Proof.
  rewrite get_todos_run. cbv zeta. do 2 eexists. split; [reflexivity|].
  cbn [high_priority medium_priority low_priority total].
  split; [apply count_priority_length|].
  split; [apply count_priority_length|].
  split; [apply count_priority_length|].
  intros Hdb. apply count_priority_partition.
  apply Forall_forall. intros [i todo] Hin.
  rewrite merge_sort_Permutation in Hin.
  apply elem_of_map_to_list in Hin. by apply (Hdb i).
Qed.

Lemma get_todos_statistics_witness :
  ∃ todos stats,
    run_request get_todos (example_store 1 2 3 4 "a" "b" "c" "d" 10 20 30 40)
    = (jsonify (TodoList todos stats) 200,
       example_store 1 2 3 4 "a" "b" "c" "d" 10 20 30 40)
    ∧ total stats
      = high_priority stats + medium_priority stats + low_priority stats.
Proof.
  destruct (get_todos_statistics
              (example_store 1 2 3 4 "a" "b" "c" "d" 10 20 30 40))
    as (todos & stats & Hrun & _ & _ & _ & Htotal).
  exists todos, stats. split; [exact Hrun|]. apply Htotal.
  intros i todo Hl. unfold example_store in Hl.
  apply elem_of_list_to_map_2 in Hl.
  repeat (apply elem_of_cons in Hl as [[= -> ->]|Hl]; [simpl; set_solver|]).
  by apply not_elem_of_nil in Hl.
Defined.

(** ** Creating a task *)

(** Unfold one run of [add_todo] down to the session operations. *)
Ltac run_add_todo :=
  unfold run_request, close_request, add_todo, try_except, bind, get_json,
    py_get, py_strip, session_add, session_commit, session_rollback, ret, raise.

Section Create.
Context `{Platform}.

(** Every run of the handler: a 400 that leaves the store as it was, or a
    201 after which the store has one more row, under the next id, with a
    non-empty content. *)
Lemma add_todo_result (now : Z) (db : table) (req : option json) :
  (∃ e, run_request (add_todo now req) db = (jsonify e 400, db))
  ∨ (∃ c p, c ≠ ""
            ∧ run_request (add_todo now req) db
              = (jsonify (TodoCreated (next_id db) c p) 201,
                 <[next_id db := {| content := c; priority := p;
                                    created_at := now |}]> db)).
Proof.
  run_add_todo.
  destruct req as [data|]; [|left; by eexists].
  destruct data as [| | | |items|fields]; try (left; by eexists).
  destruct (from_option id (JStr "") (Py.lookup "content" fields));
    try (left; by eexists).
  case_decide as Hc; [left; by eexists|].
  destruct (bind_text _) as [p|]; [|left; by eexists].
  right. by exists (Py.strip s), p.
Qed.

Lemma add_todo_keeps_content (now : Z) (db : table) (req : option json) :
  (∀ i todo, db !! i = Some todo → content todo ≠ "") →
  ∀ i todo, (run_request (add_todo now req) db).2 !! i = Some todo →
            content todo ≠ "".
Proof.
  intros Hdb i todo.
  destruct (add_todo_result now db req) as [[e ->]|(c & p & Hc & ->)];
    cbn [snd]; [apply Hdb|].
  destruct (decide (i = next_id db)) as [->|Hi].
  - rewrite lookup_insert_eq. by intros [= <-].
  - rewrite lookup_insert_ne by done. apply Hdb.
Qed.

Lemma add_todo_created (now : Z) (db : table) fields s p :
  Py.lookup "content" fields = Some (JStr s) →
  Py.strip s ≠ "" →
  from_option id (JStr "medium") (Py.lookup "priority" fields) = JStr p →
  run_request (add_todo now (Some (JObj fields))) db
  = (jsonify (TodoCreated (next_id db) (Py.strip s) p) 201,
     <[next_id db := {| content := Py.strip s; priority := p;
                        created_at := now |}]> db).
Proof.
  intros Hc Hs Hp.
  run_add_todo.
  rewrite Hc, Hp. cbn [from_option id]. rewrite decide_False by exact Hs.
  reflexivity.
Qed.



End Create.




(** C9: [add_todo] does not enforce the 200 characters of the column: a
    content of exactly 200 characters is accepted, and so is one of 201
    characters, which is stored in full. *)
Theorem add_todo_no_length_check `{Platform} (now : Z) (db : table) :
  ∀ n, n = 200%nat ∨ n = 201%nat →
    String.length (content_of_length n) = n
    ∧ ∃ i db',
        run_request
          (add_todo now (Some (JObj [("content", JStr (content_of_length n))]))) db
        = (jsonify (TodoCreated i (content_of_length n) "medium") 201, db')
        ∧ db' !! i = Some {| content := content_of_length n; priority := "medium";
                             created_at := now |}.
Proof.
  intros n Hn.
  assert (Py.strip (content_of_length n) = content_of_length n) as Hstrip
    by (destruct Hn as [->| ->]; vm_compute; reflexivity).
  split; [destruct Hn as [->| ->]; vm_compute; reflexivity|].
  assert (Py.strip (content_of_length n) ≠ "") as Hne
    by (rewrite Hstrip; destruct Hn as [->| ->]; discriminate).
  pose proof (add_todo_created now db
                [("content", JStr (content_of_length n))]
                (content_of_length n) "medium" eq_refl Hne eq_refl) as Hrun.
  rewrite Hstrip in Hrun.
  exists (next_id db). eexists. split; [exact Hrun|apply lookup_insert_eq].
Qed.

Lemma add_todo_no_length_check_witness :
  String.length (content_of_length 201) = 201%nat
  ∧ ∃ i db',
      run_request
        (add_todo (H := cpython_sqlite) 0
           (Some (JObj [("content", JStr (content_of_length 201))]))) ∅
      = (jsonify (TodoCreated i (content_of_length 201) "medium") 201, db')
      ∧ db' !! i = Some {| content := content_of_length 201; priority := "medium";
                           created_at := 0 |}.
Proof.
  apply (add_todo_no_length_check (H := cpython_sqlite) 0 ∅ 201%nat).
  right. reflexivity.
Defined.
(** ** Exceptions in a [try] block *)

Section TryExcept.
Context {S A B : Type}.
Implicit Types (m : M S A) (k : A → M S B) (h : exn → M S B).

Lemma try_bind_ok m k h s a s' :
  m s = (Ok a, s') → try_except (bind m k) h s = try_except (k a) h s'.
Proof. intros E. unfold try_except, bind. by rewrite E. Qed.

Lemma try_bind_raise m k h s e s' :
  m s = (Raise e, s') → try_except (bind m k) h s = h e s'.
Proof. intros E. unfold try_except, bind. by rewrite E. Qed.

End TryExcept.

(** ** Updating a task *)

Lemma py_in_list_valid (p : json) :
  py_in_list p ["high"; "medium"; "low"] = true →
  ∃ q, p = JStr q ∧ q ∈ ["high"; "medium"; "low"].
Proof.
  unfold py_in_list. intros Hp. apply existsb_exists in Hp as (k & Hk & Hp).
  destruct p; try discriminate Hp. simpl in Hp.
  apply bool_decide_eq_true in Hp as ->.
  eexists; split; [reflexivity|]. by apply list_elem_of_In.
Qed.

Lemma py_in_list_invalid (p : json) :
  p ∉ [JStr "high"; JStr "medium"; JStr "low"] →
  py_in_list p ["high"; "medium"; "low"] = false.
Proof.
  intros Hp. destruct (py_in_list p _) eqn:E; [|done].
  apply py_in_list_valid in E as (q & -> & Hq). exfalso. apply Hp.
  repeat (apply elem_of_cons in Hq as [->|Hq]; [set_solver|]).
  by apply not_elem_of_nil in Hq.
Qed.

Section Update.
Context `{Platform}.

(** The second half of the handler, run in a session whose working copy
    holds [t] under [todo_id]. *)
Lemma update_priority_result (db : table) todo_id todo data t :
  updated_by (Some data) todo t →
  priority t = priority todo →
  update_result db todo_id todo (Some data)
    (close_request
       (try_except (update_priority todo_id t data) update_except
          {| committed := db; working := <[todo_id := t]> db |})).
Proof.
  intros (Ht & Hc & _) Hp.
  unfold update_priority, update_finish, try_except, bind, py_in, py_get,
    set_priority, session_commit, ret, raise.
  assert (update_result db todo_id todo (Some data)
            (jsonify (TodoUpdated todo_id (content t) (priority t) (created_at t))
               200, <[todo_id := t]> db)) as Hkeep.
  { right. exists t. split; [done|]. repeat split; [done..|by left]. }
  destruct data as [| | |str|items|fields]; try (left; by eexists).
  - destruct (Py.contains "priority" str); [left; by eexists|exact Hkeep].
  - destruct (existsb (Py.is_str "priority") items);
      [left; by eexists|exact Hkeep].
  - destruct (Py.lookup "priority" fields) as [p|] eqn:Hl.
    + rewrite bool_decide_eq_true_2 by by eexists. cbn [from_option id].
      destruct (py_in_list p ["high"; "medium"; "low"]) eqn:Hv;
        [|left; by eexists].
      apply py_in_list_valid in Hv as (q & -> & Hq).
      right. eexists. cbn [negb bind_text close_request committed working].
      rewrite insert_insert_eq. split; [reflexivity|].
      repeat split; [done..|]. right. split; [by exists fields|done].
    + rewrite bool_decide_eq_false_2 by (by intros [? ?]). exact Hkeep.
Qed.

Lemma update_todo_result (db : table) todo_id todo req :
  db !! todo_id = Some todo →
  update_result db todo_id todo req (run_request (update_todo todo_id req) db).
Proof.
  intros Hget. unfold run_request, update_todo.
  rewrite (try_bind_ok _ _ _ (begin db) todo (begin db))
    by (unfold get_or_404, begin; cbn; by rewrite Hget).
  assert (updated_by req todo todo) as Hid
    by (repeat split; by left).
  assert (begin db = {| committed := db; working := <[todo_id := todo]> db |})
    as -> by (unfold begin; by rewrite insert_id).
  destruct req as [data|]; [|left; by eexists].
  erewrite try_bind_ok by reflexivity.
  destruct data as [| | |str|items|fields]; try (left; by eexists).
  - destruct (Py.contains "content" str) eqn:Hin.
    + left. unfold try_except, bind, py_in, py_get, ret, raise. rewrite Hin.
      by eexists.
    + erewrite try_bind_ok by (unfold py_in, ret; by rewrite Hin).
      by apply update_priority_result.
  - destruct (existsb (Py.is_str "content") items) eqn:Hin.
    + left. unfold try_except, bind, py_in, py_get, ret, raise. rewrite Hin.
      by eexists.
    + erewrite try_bind_ok by (unfold py_in, ret; by rewrite Hin).
      by apply update_priority_result.
  - erewrite try_bind_ok by reflexivity.
    destruct (Py.lookup "content" fields) as [raw|] eqn:Hc.
    + rewrite bool_decide_eq_true_2 by by eexists.
      erewrite try_bind_ok by (unfold py_get, ret; by rewrite Hc).
      cbn [from_option id].
      destruct raw as [| | |str| |]; try (left; by eexists).
      erewrite try_bind_ok by reflexivity.
      case_decide as Hstr; [left; by eexists|].
      erewrite try_bind_ok by reflexivity. cbn [committed working].
      rewrite insert_insert_eq.
      apply update_priority_result; [|done].
      repeat split; [|by left]. right. exists str.
      split; [by exists fields|done].
    + rewrite bool_decide_eq_false_2 by (by intros [? ?]).
      by apply update_priority_result.
Qed.

End Update.

(** C4: on an existing task, an update request whose priority is not one
    of high, medium and low is answered 400 and the store is left as it
    was, whatever else the request supplies: a new content assigned
    before the priority check stays in the session and is never
    committed. *)
Theorem update_todo_invalid_priority `{Platform} (db : table) todo_id todo fields p :
  db !! todo_id = Some todo →
  Py.lookup "priority" fields = Some p →
  p ∉ [JStr "high"; JStr "medium"; JStr "low"] →
  ∃ r db',
    run_request (update_todo todo_id (Some (JObj fields))) db = (r, db')
    ∧ status r = 400 ∧ client_error r
    ∧ db' = db ∧ db' !! todo_id = Some todo.
Proof.
  intros Hget Hl Hp. apply py_in_list_invalid in Hp.
  assert (∀ t s, update_priority todo_id t (JObj fields) s
                 = (Ok (jsonify (ErrorMsg "Invalid priority value") 400), s))
    as Hcheck.
  { intros t s. unfold update_priority, bind, py_in, py_get, ret.
    rewrite Hl, bool_decide_eq_true_2 by by eexists.
    cbn [from_option id]. by rewrite Hp. }
  assert (∀ r, status r = 400 →
            status r = 400 ∧ client_error r ∧ db = db ∧ db !! todo_id = Some todo)
    as Hfin by (intros r Hr; unfold client_error; rewrite Hr; repeat split; [lia..|done]).
  unfold run_request, update_todo.
  rewrite (try_bind_ok _ _ _ (begin db) todo (begin db))
    by (unfold get_or_404, begin; cbn; by rewrite Hget).
  do 2 (erewrite try_bind_ok by reflexivity).
  destruct (Py.lookup "content" fields) as [raw|] eqn:Hc.
  - rewrite bool_decide_eq_true_2 by by eexists.
    erewrite try_bind_ok by (unfold py_get, ret; by rewrite Hc).
    cbn [from_option id].
    destruct raw as [| | |str| |];
      try (do 2 eexists; split; [reflexivity|by apply Hfin]).
    erewrite try_bind_ok by reflexivity.
    case_decide; [do 2 eexists; split; [reflexivity|by apply Hfin]|].
    erewrite try_bind_ok by reflexivity.
    unfold try_except. rewrite Hcheck.
    do 2 eexists; split; [reflexivity|by apply Hfin].
  - rewrite bool_decide_eq_false_2 by (by intros [? ?]).
    unfold try_except. rewrite Hcheck.
    do 2 eexists; split; [reflexivity|by apply Hfin].
Qed.

Lemma update_todo_invalid_priority_witness :
  ∃ r db',
    run_request
      (update_todo (H := cpython_sqlite) 1
         (Some (JObj [("content", JStr "call home"); ("priority", JStr "urgent")])))
      one_task
    = (r, db')
    ∧ status r = 400 ∧ client_error r
    ∧ db' = one_task
    ∧ db' !! 1 = Some {| content := "write report"; priority := "low";
                         created_at := 5 |}.
Proof.
  apply (update_todo_invalid_priority (H := cpython_sqlite) one_task 1
           {| content := "write report"; priority := "low"; created_at := 5 |}
           [("content", JStr "call home"); ("priority", JStr "urgent")]
           (JStr "urgent")).
  - reflexivity.
  - reflexivity.
  - rewrite !not_elem_of_cons. repeat split; try discriminate.
    all: apply not_elem_of_nil.
Defined.

(** The same request seen from inside the session: when the handler
    returns, the working copy holds the new content and the committed
    table the old one. *)
Example update_todo_uncommitted_content :
  let s := (update_todo (H := cpython_sqlite) 1
              (Some (JObj [("content", JStr "call home");
                           ("priority", JStr "urgent")]))
              (begin one_task)).2 in
  content <$> working s !! 1 = Some "call home"
  ∧ content <$> committed s !! 1 = Some "write report".
Proof. split; reflexivity. Qed.

(** ** A task that does not exist *)

Lemma delete_todo_found (db : table) todo_id todo :
  db !! todo_id = Some todo →
  run_request (delete_todo todo_id) db
  = (jsonify (Message "Todo deleted successfully") 200, delete todo_id db).
Proof.
  intros Hget. unfold run_request, delete_todo.
  rewrite (try_bind_ok _ _ _ (begin db) todo (begin db))
    by (unfold get_or_404, begin; cbn; by rewrite Hget).
  reflexivity.
Qed.

Lemma delete_todo_missing (db : table) todo_id :
  db !! todo_id = None →
  run_request (delete_todo todo_id) db = (jsonify (ErrorOf NotFound) 400, db).
Proof.
  intros Hget. unfold run_request, delete_todo.
  rewrite (try_bind_raise _ _ _ (begin db) NotFound (begin db))
    by (unfold get_or_404, begin; cbn; by rewrite Hget).
  reflexivity.
Qed.

Lemma update_todo_missing `{Platform} (db : table) todo_id req :
  db !! todo_id = None →
  run_request (update_todo todo_id req) db = (jsonify (ErrorOf NotFound) 400, db).
Proof.
  intros Hget. unfold run_request, update_todo.
  rewrite (try_bind_raise _ _ _ (begin db) NotFound (begin db))
    by (unfold get_or_404, begin; cbn; by rewrite Hget).
  reflexivity.
Qed.

(** C5: for an id without a task, [delete_todo] and [update_todo] leave
    the store (and so its task count) as it was, but the [NotFound] raised
    by [get_or_404] is caught by [except Exception], so both answer a 400
    that carries the not-found message, never the 404. *)
Theorem missing_todo_status `{Platform} (db : table) todo_id req :
  db !! todo_id = None →
  let deleted := run_request (delete_todo todo_id) db in
  let updated := run_request (update_todo todo_id req) db in
  deleted = (jsonify (ErrorOf NotFound) 400, db)
  ∧ updated = (jsonify (ErrorOf NotFound) 400, db)
  ∧ size deleted.2 = size db
  ∧ status deleted.1 ≠ 404 ∧ status updated.1 ≠ 404.
Proof.
  intros Hget. cbv zeta.
  rewrite delete_todo_missing, update_todo_missing by exact Hget.
  repeat split; discriminate.
Qed.

Lemma missing_todo_status_witness :
  run_request (update_todo (H := cpython_sqlite) 999 (Some (JObj []))) one_task
  = (jsonify (ErrorOf NotFound) 400, one_task).
Proof.
  apply (missing_todo_status (H := cpython_sqlite) one_task 999 (Some (JObj []))).
  reflexivity.
Defined.

(** C8: an update of an existing task, accepted or not, keeps the task
    under its id with its [created_at] and leaves every other row alone;
    the content changes only to the trimmed content of the request and the
    priority only to the priority of the request; a 200 reports the id and
    the creation time unchanged. *)
Theorem update_todo_frame `{Platform} (db : table) todo_id todo req :
  db !! todo_id = Some todo →
  ∃ r t,
    run_request (update_todo todo_id req) db = (r, <[todo_id := t]> db)
    ∧ created_at t = created_at todo
    ∧ (content t ≠ content todo →
       ∃ s, supplied "content" req (JStr s) ∧ content t = Py.strip s)
    ∧ (priority t ≠ priority todo → supplied "priority" req (JStr (priority t)))
    ∧ (status r = 200 →
       body r = TodoUpdated todo_id (content t) (priority t) (created_at todo)).
Proof.
  intros Hget.
  destruct (update_todo_result db todo_id todo req Hget)
    as [[e ->]|(t & -> & Ht & Hc & Hp)].
  - exists (jsonify e 400), todo. rewrite insert_id by exact Hget.
    repeat split; done.
  - eexists _, t. split; [reflexivity|]. split; [exact Ht|].
    split; [|split].
    + intros Hne. destruct Hc as [Hc|(s & Hs & Hc & _)]; [done|by exists s].
    + intros Hne. destruct Hp as [Hp|[Hs _]]; done.
    + intros _. cbn [body jsonify]. by rewrite Ht.
Qed.

Lemma update_todo_frame_witness :
  ∃ r t,
    run_request
      (update_todo (H := cpython_sqlite) 1 (Some (JObj [("priority", JStr "high")])))
      one_task
    = (r, <[1 := t]> one_task)
    ∧ created_at t = 5.
Proof.
  destruct (update_todo_frame (H := cpython_sqlite) one_task 1
              {| content := "write report"; priority := "low"; created_at := 5 |}
              (Some (JObj [("priority", JStr "high")])) eq_refl)
    as (r & t & Hrun & Ht & _).
  exists r, t. split; [exact Hrun|exact Ht].
Defined.

(** ** The store invariant *)

Lemma store_ok_empty : store_ok ∅.
Proof. intros i todo Hl. by rewrite lookup_empty in Hl. Qed.

(** C2: the store invariant (non-empty content, priority among high,
    medium and low) does not survive [add_todo]: a create request with
    priority urgent on the empty store is answered 201 and the task is
    stored with that priority. *)
Theorem add_todo_unchecked_priority `{Platform} (now : Z) :
  ∃ i db',
    run_request
      (add_todo now (Some (JObj [("content", JStr "x"); ("priority", JStr "urgent")])))
      ∅
    = (jsonify (TodoCreated i "x" "urgent") 201, db')
    ∧ db' !! i = Some {| content := "x"; priority := "urgent"; created_at := now |}
    ∧ store_ok ∅
    ∧ ¬ store_ok db'.
Proof.
  exists (next_id ∅). eexists.
  split.
  { apply (add_todo_created now ∅
             [("content", JStr "x"); ("priority", JStr "urgent")] "x" "urgent");
      [reflexivity|discriminate|reflexivity]. }
  split; [apply lookup_insert_eq|]. split; [apply store_ok_empty|].
  intros Hok. destruct (Hok (next_id ∅) _ (lookup_insert_eq _ _ _)) as [_ Hp].
  cbn [priority] in Hp.
  repeat (apply elem_of_cons in Hp as [Hp|Hp]; [discriminate Hp|]).
  by apply not_elem_of_nil in Hp.
Qed.

(** The other two handlers keep the invariant. *)
Lemma delete_todo_store_ok (db : table) todo_id :
  store_ok db → store_ok (run_request (delete_todo todo_id) db).2.
Proof.
  intros Hdb. destruct (db !! todo_id) as [todo|] eqn:Hget.
  - rewrite (delete_todo_found db todo_id todo Hget). cbn [snd].
    intros i t Hl. apply lookup_delete_Some in Hl as [_ Hl]. by apply (Hdb i).
  - by rewrite (delete_todo_missing db todo_id Hget).
Qed.

Lemma update_todo_store_ok `{Platform} (db : table) todo_id req :
  store_ok db → store_ok (run_request (update_todo todo_id req) db).2.
Proof.
  intros Hdb. destruct (db !! todo_id) as [todo|] eqn:Hget.
  - destruct (Hdb todo_id todo Hget) as [Hc0 Hp0].
    destruct (update_todo_result db todo_id todo req Hget)
      as [[e ->]|(t & -> & _ & Hc & Hp)]; [done|].
    cbn [snd]. intros i t'. destruct (decide (i = todo_id)) as [->|Hi].
    + rewrite lookup_insert_eq. intros [= <-]. split.
      * destruct Hc as [->|(s & _ & _ & Hc)]; done.
      * destruct Hp as [->|[_ Hp]]; done.
    + rewrite lookup_insert_ne by done. apply Hdb.
  - by rewrite (update_todo_missing db todo_id req Hget).
Qed.

(** ** The assistant *)

Section Assistant.
Context `{Platform}.
Implicit Types (model : option (string → outcome string)) (req : option json).

Lemma get_ai_response_unavailable model req :
  run_assistant (get_ai_response false model req)
  = (jsonify (ErrorMsg "AI assistant is not available") 503, []).
Proof. reflexivity. Qed.

(** The handler when the assistant is available and the body is a JSON
    object: [user_input] is the value under input, or the empty string. *)
Lemma get_ai_response_available model fields :
  let user_input := from_option id (JStr "") (Py.lookup "input" fields) in
  let prompt := prompt_prefix +:+ format_value user_input in
  run_assistant (get_ai_response true model (Some (JObj fields)))
  = if Py.truthy user_input then
      match model with
      | Some generate =>
          match generate prompt with
          | Ok text => (jsonify (Reply text) 200, [prompt])
          | Raise e => (jsonify (ErrorOf e) 500, [prompt])
          end
      | None => (jsonify (ErrorOf AttributeError) 500, [])
      end
    else (jsonify (ErrorMsg "Empty input") 400, []).
Proof.
  cbv zeta. unfold run_assistant, get_ai_response, try_except, bind, get_json,
    py_get, generate_content, ret. cbn [negb].
  destruct (Py.truthy _); [|reflexivity]. cbn [negb].
  destruct model as [generate|]; [|reflexivity].
  unfold prompt_prefix. by destruct (generate _).
Qed.

(** Without a JSON object as body the handler raises before the model
    is used, and the exception becomes a 500. *)
Lemma get_ai_response_no_object model req :
  (∀ fields, req ≠ Some (JObj fields)) →
  ∃ e, run_assistant (get_ai_response true model req) = (jsonify e 500, []).
Proof.
  intros Hreq. destruct req as [data|]; [|by eexists].
  destruct data; try by eexists. by destruct (Hreq fields).
Qed.

End Assistant.

(** C7, as the handler has it, for every assistant request. An
    unavailable assistant answers 503 without a call, whatever the request.
    An available one answers 500 without a call when the body is not a
    JSON object; 400 without a call when the input is missing, the empty
    string or another value Python takes for false; and otherwise sends
    the fixed prefix followed by the input (for a string, the string
    itself) to the model, once, and returns the text the model produces
    with a 200, or a 500 with the exception the model raises. Without a
    model object the call itself raises and the answer is a 500. *)
Theorem get_ai_response_cases `{Platform} (available : bool)
    (model : option (string → outcome string)) (req : option json) :
  let answer := run_assistant (get_ai_response available model req) in
  (available = false →
   answer = (jsonify (ErrorMsg "AI assistant is not available") 503, []))
  ∧ (available = true →
     (∀ fields, req ≠ Some (JObj fields)) →
     ∃ e, answer = (jsonify (ErrorOf e) 500, []))
  ∧ (available = true →
     ∀ fields, req = Some (JObj fields) →
     let user_input := from_option id (JStr "") (Py.lookup "input" fields) in
     let prompt :=
       "As a todo list assistant, help with this question: "
       +:+ format_value user_input in
     (Py.lookup "input" fields = None ∨ Py.lookup "input" fields = Some (JStr "") →
      Py.truthy user_input = false)
     ∧ (∀ s, Py.lookup "input" fields = Some (JStr s) → s ≠ "" →
             Py.truthy user_input = true
             ∧ prompt
               = "As a todo list assistant, help with this question: " +:+ s)
     ∧ (Py.truthy user_input = false →
        answer = (jsonify (ErrorMsg "Empty input") 400, []))
     ∧ (Py.truthy user_input = true →
        match model with
        | Some generate =>
            answer.2 = [prompt]
            ∧ (∀ text, generate prompt = Ok text →
                       answer.1 = jsonify (Reply text) 200)
            ∧ (∀ e, generate prompt = Raise e →
                    answer.1 = jsonify (ErrorOf e) 500)
        | None => answer = (jsonify (ErrorOf AttributeError) 500, [])
        end)).
Proof.
  cbv zeta. split; [|split].
  - intros ->. apply get_ai_response_unavailable.
  - intros -> Hreq. destruct req as [data|]; [|by eexists].
    destruct data; try by eexists. by destruct (Hreq fields).
  - intros -> fields ->. rewrite get_ai_response_available.
    fold prompt_prefix. split; [|split; [|split]].
    + by intros [-> | ->].
    + intros s -> Hs. cbn [from_option id Py.truthy format_value].
      by rewrite bool_decide_eq_false_2 by exact Hs.
    + by intros ->.
    + intros ->. destruct model as [generate|]; [|reflexivity].
      destruct (generate _) as [text'|e']; repeat split; try done.
      * by intros text [= ->].
      * by intros e [= ->].
Qed.

Lemma get_ai_response_cases_witness :
  let generate := λ prompt : string, Ok ("Sure: " +:+ prompt) in
  let req := Some (JObj [("input", JStr "what next?")]) in
  run_assistant (get_ai_response (H := cpython_sqlite) true (Some generate) req)
  = (jsonify
       (Reply "Sure: As a todo list assistant, help with this question: what next?")
       200,
     ["As a todo list assistant, help with this question: what next?"]).
Proof.
  intros generate req.
  destruct (proj2 (proj2 (get_ai_response_cases (H := cpython_sqlite) true
                            (Some generate) req))
              eq_refl [("input", JStr "what next?")] eq_refl)
    as (_ & _ & _ & Hcall).
  destruct (Hcall eq_refl) as (Hsent & Htext & _).
  specialize (Htext _ eq_refl). cbv zeta in Hsent, Htext.
  rewrite (surjective_pairing (run_assistant _)), Htext, Hsent. reflexivity.
Defined.

(** C7 as stated fails: with an empty input and an unavailable assistant
    the answer is the 503, which is not a client error. *)
Lemma get_ai_response_empty_input_unavailable :
  let r := (run_assistant
              (get_ai_response (H := cpython_sqlite) false None
                 (Some (JObj [("input", JStr "")])))).1 in
  status r = 503 ∧ ¬ client_error r.
Proof. split; [reflexivity|]. unfold client_error. simpl. lia. Qed.

(** C10: an unavailable assistant answers every request, also one with an
    empty or missing input or without a body, with the 503 and calls
    nothing; the 400 for an empty input is answered only by an available
    assistant, and an available one does answer it. *)
Theorem get_ai_response_availability_first `{Platform}
    (model : option (string → outcome string)) (req : option json) :
  run_assistant (get_ai_response false model req)
  = (jsonify (ErrorMsg "AI assistant is not available") 503, [])
  ∧ (∀ available,
      status (run_assistant (get_ai_response available model req)).1 = 400 →
      available = true)
  ∧ run_assistant (get_ai_response true model (Some (JObj [])))
    = (jsonify (ErrorMsg "Empty input") 400, []).
Proof.
  split; [apply get_ai_response_unavailable|]. split.
  - intros [|]; [done|]. rewrite get_ai_response_unavailable.
    intros Hs. discriminate Hs.
  - by rewrite get_ai_response_available.
Qed.

Lemma get_ai_response_availability_first_witness :
  status (run_assistant
            (get_ai_response (H := cpython_sqlite) true None
               (Some (JObj [("input", JStr "")])))).1 = 400
  ∧ true = true.
Proof.
  split; [reflexivity|].
  apply (proj1 (proj2 (get_ai_response_availability_first (H := cpython_sqlite)
                         None (Some (JObj [("input", JStr "")])))) true).
  reflexivity.
Defined.

(** * Further properties *)

(** ** Trimming, continued *)

Lemma rstrip_idempotent (s : string) : Py.rstrip (Py.rstrip s) = Py.rstrip s.
Proof.
  induction s as [|c s IH]; [reflexivity|]. cbn [Py.rstrip].
  destruct (Py.rstrip s) as [|c' r] eqn:E.
  - destruct (Py.isspace c) eqn:Hc; [reflexivity|].
    cbn [Py.rstrip]. by rewrite Hc.
  - cbn [Py.rstrip] in *. by rewrite IH.
Qed.

Lemma rstrip_head (s : string) c r :
  Py.isspace c = false → ∃ r', Py.rstrip (String c r) = String c r'.
Proof.
  intros Hc. cbn [Py.rstrip]. destruct (Py.rstrip r); rewrite ?Hc; by eexists.
Qed.

(** Trimming twice is trimming once: what the handlers store is
    [trimmed]. *)
Lemma strip_idempotent (s : string) : Py.strip (Py.strip s) = Py.strip s.
Proof.
  unfold Py.strip at 1.
  assert (Py.lstrip (Py.strip s) = Py.strip s) as ->.
  { unfold Py.strip. destruct (Py.lstrip s) as [|c r] eqn:E; [reflexivity|].
    apply lstrip_head in E as Hc.
    destruct (rstrip_head s c r Hc) as [r' ->]. cbn [Py.lstrip]. by rewrite Hc. }
  apply rstrip_idempotent.
Qed.

(** The ends of a trimmed text are not whitespace. *)
Lemma rstrip_last (s : string) c :
  Py.isspace c = true → ∀ r, Py.rstrip s ≠ r +:+ String c "".
Proof.
  intros Hc. induction s as [|c' s IH]; intros r.
  - by destruct r.
  - cbn [Py.rstrip]. destruct (Py.rstrip s) as [|c'' r''] eqn:E.
    + destruct (Py.isspace c') eqn:Hc'; [by destruct r|].
      intros Hr. destruct r as [|x r]; cbn in Hr.
      * injection Hr as ->. congruence.
      * injection Hr as _ Hr. by destruct r.
    + intros Hr. destruct r as [|x r]; cbn in Hr; [discriminate Hr|].
      injection Hr as _ Hr. by apply (IH r).
Qed.

Lemma strip_ends (s : string) c :
  Py.isspace c = true →
  (∀ r, Py.strip s ≠ String c r) ∧ (∀ r, Py.strip s ≠ r +:+ String c "").
Proof.
  intros Hc. split; [|by apply rstrip_last].
  intros r Hs. unfold Py.strip in Hs.
  destruct (Py.lstrip s) as [|c' r'] eqn:E; [discriminate Hs|].
  apply lstrip_head in E as Hc'.
  destruct (rstrip_head s c' r' Hc') as [r'' Hr]. rewrite Hr in Hs.
  injection Hs as -> _. congruence.
Qed.

(** ** The list, continued *)

(** X1: the list holds every stored task exactly once, each under its own
    id, and [total] is the number of stored tasks. *)
Theorem get_todos_complete (db : table) :
  ∃ todos stats,
    run_request get_todos db = (jsonify (TodoList todos stats) 200, db)
    ∧ (∀ i todo, (i, todo) ∈ todos ↔ db !! i = Some todo)
    ∧ NoDup todos.*1
    ∧ total stats = Z.of_nat (size db).
Proof.
  rewrite get_todos_run. cbv zeta. do 2 eexists. split; [reflexivity|].
  pose proof (merge_sort_Permutation listed_before (map_to_list db)) as Hperm.
  split; [|split].
  - intros i todo. rewrite Hperm. apply elem_of_map_to_list.
  - rewrite Hperm. apply NoDup_fst_map_to_list.
  - cbn [total]. unfold Py.len. rewrite Hperm. by rewrite length_map_to_list.
Qed.


(** ** Deleting a task *)

(** X3: deleting an existing task is answered 200 and removes that task
    and nothing else: the count drops by one, the task is absent from the
    next list, and a second delete of the same id is answered 400. *)
Theorem delete_todo_removes (db : table) todo_id todo :
  db !! todo_id = Some todo →
  ∃ db',
    run_request (delete_todo todo_id) db
    = (jsonify (Message "Todo deleted successfully") 200, db')
    ∧ db' !! todo_id = None
    ∧ (∀ j, j ≠ todo_id → db' !! j = db !! j)
    ∧ size db = S (size db')
    ∧ (∃ todos stats,
         run_request get_todos db' = (jsonify (TodoList todos stats) 200, db')
         ∧ todo_id ∉ todos.*1)
    ∧ run_request (delete_todo todo_id) db' = (jsonify (ErrorOf NotFound) 400, db').
Proof.
  intros Hget. exists (delete todo_id db).
  split; [by apply (delete_todo_found db todo_id todo)|].
  split; [apply lookup_delete_eq|].
  split; [intros j Hj; by apply lookup_delete_ne|].
  split.
  { rewrite <- (insert_delete_id db todo_id todo Hget) at 1.
    apply map_size_insert_None, lookup_delete_eq. }
  split.
  - rewrite get_todos_run. cbv zeta. do 2 eexists. split; [reflexivity|].
    rewrite merge_sort_Permutation. intros Hin.
    apply list_elem_of_fmap in Hin as ([i t] & -> & Hin).
    apply elem_of_map_to_list in Hin. cbn in Hin.
    by rewrite lookup_delete_eq in Hin.
  - apply delete_todo_missing, lookup_delete_eq.
Qed.

Lemma delete_todo_removes_witness :
  ∃ db',
    run_request (delete_todo 1) one_task
    = (jsonify (Message "Todo deleted successfully") 200, db')
    ∧ db' !! 1 = None.
Proof.
  destruct (delete_todo_removes one_task 1
              {| content := "write report"; priority := "low"; created_at := 5 |}
              eq_refl) as (db' & Hrun & Hgone & _).
  exists db'. split; [exact Hrun|exact Hgone].
Defined.

(** ** Creating a task, continued *)

(** Every run of [add_todo]: a 400 with the store as it was, or a 201 for
    a JSON object whose content is a string, not empty after trimming,
    and whose priority the driver accepts. *)
Lemma add_todo_cases `{Platform} (now : Z) (db : table) (req : option json) :
  (∃ e, run_request (add_todo now req) db = (jsonify e 400, db))
  ∨ (∃ fields s p,
       req = Some (JObj fields)
       ∧ Py.lookup "content" fields = Some (JStr s)
       ∧ Py.strip s ≠ ""
       ∧ bind_text (from_option id (JStr "medium") (Py.lookup "priority" fields))
         = Some p
       ∧ run_request (add_todo now req) db
         = (jsonify (TodoCreated (next_id db) (Py.strip s) p) 201,
            <[next_id db := {| content := Py.strip s; priority := p;
                               created_at := now |}]> db)).
Proof.
  destruct req as [data|]; [|left; by eexists].
  destruct data as [| | | |items|fields]; try (left; by eexists).
  destruct (Py.lookup "content" fields) as [raw|] eqn:Hc.
  - destruct raw as [| | |s| |];
      try (left; eexists; run_add_todo; rewrite Hc; reflexivity).
    destruct (decide (Py.strip s = "")) as [Hs|Hs].
    + left. eexists. run_add_todo. rewrite Hc. cbn [from_option id].
      rewrite Hs. reflexivity.
    + destruct (bind_text (from_option id (JStr "medium")
                             (Py.lookup "priority" fields))) as [p|] eqn:Hp.
      * right. exists fields, s, p. repeat split; try done.
        run_add_todo. rewrite Hc. cbn [from_option id].
        rewrite decide_False by exact Hs. by rewrite Hp.
      * left. eexists. run_add_todo. rewrite Hc. cbn [from_option id].
        rewrite decide_False by exact Hs. by rewrite Hp.
  - left. eexists. run_add_todo. rewrite Hc. reflexivity.
Qed.

(** X4: a create request never alters or removes a stored task: the store
    is unchanged (400), or it gains exactly one task, under an id that was
    free, carrying the time of the request (201). *)
Theorem add_todo_extends `{Platform} (now : Z) (db : table) (req : option json) :
  ∃ r db',
    run_request (add_todo now req) db = (r, db')
    ∧ (∀ j todo, db !! j = Some todo → db' !! j = Some todo)
    ∧ (status r = 400 ∧ db' = db
       ∨ status r = 201
         ∧ ∃ i todo, body r = TodoCreated i (content todo) (priority todo)
                     ∧ db !! i = None ∧ db' = <[i := todo]> db
                     ∧ created_at todo = now
                     ∧ size db' = S (size db)).
Proof.
  destruct (add_todo_cases now db req)
    as [[e ->]|(fields & s & p & _ & _ & _ & _ & ->)].
  - do 2 eexists. split; [reflexivity|]. split; [done|]. by left.
  - pose proof (next_id_fresh db) as Hfresh.
    do 2 eexists. split; [reflexivity|]. split.
    + intros j todo Hj. rewrite lookup_insert_ne; [done|]. congruence.
    + right. split; [reflexivity|].
      exists (next_id db),
        {| content := Py.strip s; priority := p; created_at := now |}.
      split; [reflexivity|]. split; [exact Hfresh|]. split; [reflexivity|].
      split; [reflexivity|]. by apply map_size_insert_None.
Qed.

(** X5: deleting the task a create request has just made gives back the
    store as it was before the create. *)
Theorem add_todo_delete_round_trip `{Platform} (now : Z) (db : table) req r db' i c p :
  run_request (add_todo now req) db = (r, db') →
  status r = 201 →
  body r = TodoCreated i c p →
  run_request (delete_todo i) db'
  = (jsonify (Message "Todo deleted successfully") 200, db).
Proof.
  intros Hrun Hs Hb.
  destruct (add_todo_cases now db req)
    as [[e He]|(fields & s & q & _ & _ & _ & _ & He)];
    rewrite He in Hrun; injection Hrun as <- <-; [discriminate Hs|].
  injection Hb as <- _ _.
  erewrite delete_todo_found by apply lookup_insert_eq.
  by rewrite delete_insert_id by apply next_id_fresh.
Qed.

Lemma add_todo_delete_round_trip_witness :
  run_request (delete_todo 2)
    (run_request
       (add_todo (H := cpython_sqlite) 9 (Some (JObj [("content", JStr "pay rent")])))
       one_task).2
  = (jsonify (Message "Todo deleted successfully") 200, one_task).
Proof.
  apply (add_todo_delete_round_trip (H := cpython_sqlite) 9 one_task
           (Some (JObj [("content", JStr "pay rent")]))
           (jsonify (TodoCreated 2 "pay rent" "medium") 201) _ 2 "pay rent" "medium");
    reflexivity.
Defined.


(** ** Updating a task, continued *)



Section UpdateAccepted.
Context `{Platform}.



End UpdateAccepted.



(** X8: an update whose content is a string made of whitespace only (or
    empty) is answered 400 and changes nothing, also when it comes with a
    valid priority: the priority is not applied. *)
Theorem update_todo_blank_content `{Platform} (db : table) todo_id todo fields s :
  db !! todo_id = Some todo →
  Py.lookup "content" fields = Some (JStr s) →
  all_space s = true →
  run_request (update_todo todo_id (Some (JObj fields))) db
  = (jsonify (ErrorMsg "Content cannot be empty") 400, db).
Proof.
  intros Hget Hl Hs. apply strip_empty in Hs.
  unfold run_request, update_todo.
  rewrite (try_bind_ok _ _ _ (begin db) todo (begin db))
    by (unfold get_or_404, begin; cbn; by rewrite Hget).
  do 2 (erewrite try_bind_ok by reflexivity).
  rewrite Hl, bool_decide_eq_true_2 by by eexists.
  erewrite try_bind_ok by (unfold py_get, ret; by rewrite Hl).
  cbn [from_option id]. erewrite try_bind_ok by reflexivity.
  by rewrite Hs.
Qed.

Lemma update_todo_blank_content_witness :
  run_request
    (update_todo (H := cpython_sqlite) 1
       (Some (JObj [("content", JStr "  "); ("priority", JStr "high")])))
    one_task
  = (jsonify (ErrorMsg "Content cannot be empty") 400, one_task).
Proof.
  apply (update_todo_blank_content (H := cpython_sqlite) one_task 1
           {| content := "write report"; priority := "low"; created_at := 5 |}
           [("content", JStr "  "); ("priority", JStr "high")] "  ");
    reflexivity.
Defined.



(** X10: a body that is a JSON array is not refused as such: when none of
    its items is the string content or priority, the update is answered
    200 and changes nothing; otherwise the [get] on the array raises and
    the answer is 400. The store is unchanged either way. *)
Theorem update_todo_array_body `{Platform} (db : table) todo_id todo items :
  db !! todo_id = Some todo →
  run_request (update_todo todo_id (Some (JArr items))) db
  = (if existsb (Py.is_str "content") items
        || existsb (Py.is_str "priority") items
     then jsonify (ErrorOf AttributeError) 400
     else jsonify (TodoUpdated todo_id (content todo) (priority todo)
                     (created_at todo)) 200,
     db).
Proof.
  intros Hget. unfold run_request, update_todo.
  rewrite (try_bind_ok _ _ _ (begin db) todo (begin db))
    by (unfold get_or_404, begin; cbn; by rewrite Hget).
  erewrite try_bind_ok by reflexivity.
  unfold update_priority, update_finish, try_except, bind, py_in, py_get,
    session_commit, ret, raise.
  destruct (existsb (Py.is_str "content") items); [reflexivity|].
  destruct (existsb (Py.is_str "priority") items); reflexivity.
Qed.

Lemma update_todo_array_body_witness :
  run_request (update_todo (H := cpython_sqlite) 1 (Some (JArr []))) one_task
  = (jsonify (TodoUpdated 1 "write report" "low" 5) 200, one_task).
Proof.
  apply (update_todo_array_body (H := cpython_sqlite) one_task 1
           {| content := "write report"; priority := "low"; created_at := 5 |} []).
  reflexivity.
Defined.

(** X11: an update request, whatever it carries and whether the task
    exists or not, neither adds nor removes a task: the ids in the store
    and the task count are the same after it. *)
Theorem update_todo_same_ids `{Platform} (db : table) todo_id req :
  dom (run_request (update_todo todo_id req) db).2 = dom db
  ∧ size (run_request (update_todo todo_id req) db).2 = size db.
Proof.
  destruct (db !! todo_id) as [todo|] eqn:Hget.
  - destruct (update_todo_result db todo_id todo req Hget)
      as [[e ->]|(t & -> & _)]; [done|]. cbn [snd].
    split; [by apply dom_insert_lookup_L|].
    by apply map_size_insert_Some.
  - by rewrite (update_todo_missing db todo_id req Hget).
Qed.

(** ** Request histories *)

Section Histories.
Context `{Platform}.

Lemma serve_all_cons q qs (db : table) :
  serve_all (q :: qs) db = serve_all qs (serve q db).2.
Proof. reflexivity. Qed.

(** The store after one request, route by route. *)
Lemma serve_cases (q : request) (db : table) :
  (serve q db).2 = db
  ∨ (∃ now fields s p,
       q = POST_todos now (Some (JObj fields))
       ∧ Py.lookup "content" fields = Some (JStr s) ∧ Py.strip s ≠ ""
       ∧ bind_text (from_option id (JStr "medium") (Py.lookup "priority" fields))
         = Some p
       ∧ db !! next_id db = None
       ∧ (serve q db).2
         = <[next_id db := {| content := Py.strip s; priority := p;
                              created_at := now |}]> db)
  ∨ (∃ todo_id todo,
       q = DELETE_todo todo_id ∧ db !! Z.of_N todo_id = Some todo
       ∧ (serve q db).2 = delete (Z.of_N todo_id) db)
  ∨ (∃ todo_id req todo t,
       q = PUT_todo todo_id req ∧ db !! Z.of_N todo_id = Some todo
       ∧ updated_by req todo t
       ∧ (serve q db).2 = <[Z.of_N todo_id := t]> db).
Proof.
  destruct q as [|now req|todo_id|todo_id req]; unfold serve, route.
  - left. by rewrite get_todos_run.
  - destruct (add_todo_cases now db req)
      as [[e ->]|(fields & s & p & -> & Hc & Hs & Hp & ->)]; [by left|].
    right; left. exists now, fields, s, p.
    repeat split; try done. apply next_id_fresh.
  - destruct (db !! Z.of_N todo_id) as [todo|] eqn:Hget.
    + right; right; left. exists todo_id, todo.
      by rewrite (delete_todo_found db _ todo Hget).
    + left. by rewrite (delete_todo_missing db _ Hget).
  - destruct (db !! Z.of_N todo_id) as [todo|] eqn:Hget.
    + destruct (update_todo_result db _ todo req Hget)
        as [[e ->]|(t & -> & Ht)]; [by left|].
      right; right; right. by exists todo_id, req, todo, t.
    + left. by rewrite (update_todo_missing db _ req Hget).
Qed.

Lemma serve_contents_ok (q : request) (db : table) :
  contents_ok db → contents_ok (serve q db).2.
Proof.
  intros Hdb.
  destruct (serve_cases q db)
    as [->|[(now & fields & s & p & _ & _ & Hs & _ & _ & ->)
       |[(todo_id & todo & _ & _ & ->)
        |(todo_id & req & todo & t & _ & Hget & (_ & Hc & _) & ->)]]];
    [done|..]; intros i x.
  - destruct (decide (i = next_id db)) as [->|Hi].
    + rewrite lookup_insert_eq. intros [= <-]. split; [done|].
      apply strip_idempotent.
    + rewrite lookup_insert_ne by done. apply Hdb.
  - intros Hl. apply lookup_delete_Some in Hl as [_ Hl]. by apply (Hdb i).
  - destruct (decide (i = Z.of_N todo_id)) as [->|Hi].
    + rewrite lookup_insert_eq. intros [= <-].
      destruct Hc as [->|(s & _ & Hc & Hne)]; [by apply (Hdb _ _ Hget)|].
      split; [done|]. unfold trimmed. rewrite Hc. apply strip_idempotent.
    + rewrite lookup_insert_ne by done. apply Hdb.
Qed.

Lemma serve_all_contents_ok (qs : list request) (db : table) :
  contents_ok db → contents_ok (serve_all qs db).
Proof.
  revert db. induction qs as [|q qs IH]; intros db Hdb; [done|].
  rewrite serve_all_cons. by apply IH, serve_contents_ok.
Qed.

Lemma serve_store_ok (q : request) (db : table) :
  checked_priority q → store_ok db → store_ok (serve q db).2.
Proof.
  intros Hq Hdb.
  destruct (serve_cases q db)
    as [->|[(now & fields & s & p & -> & _ & Hs & Hp & _ & ->)
       |[(todo_id & todo & _ & _ & ->)
        |(todo_id & req & todo & t & _ & Hget & (_ & Hc & Hp) & ->)]]];
    [done|..]; intros i x.
  - destruct (decide (i = next_id db)) as [->|Hi].
    + rewrite lookup_insert_eq. intros [= <-]. split; [done|]. cbn [priority].
      destruct (Py.lookup "priority" fields) as [pj|] eqn:Hl.
      * specialize (Hq fields pj eq_refl Hl). cbn [from_option id] in Hp.
        repeat (apply elem_of_cons in Hq as [->|Hq];
                [injection Hp as <-; set_solver|]).
        by apply not_elem_of_nil in Hq.
      * injection Hp as <-. set_solver.
    + rewrite lookup_insert_ne by done. apply Hdb.
  - intros Hl. apply lookup_delete_Some in Hl as [_ Hl]. by apply (Hdb i).
  - destruct (decide (i = Z.of_N todo_id)) as [->|Hi].
    + rewrite lookup_insert_eq. intros [= <-].
      destruct (Hdb _ _ Hget) as [Hc0 Hp0]. split.
      * destruct Hc as [->|(s & _ & _ & Hne)]; done.
      * destruct Hp as [->|[_ Hp]]; done.
    + rewrite lookup_insert_ne by done. apply Hdb.
Qed.

Lemma serve_keeps_task (q : request) (db : table) i todo :
  keeps_task i q → db !! i = Some todo →
  ∃ t, (serve q db).2 !! i = Some t ∧ created_at t = created_at todo.
Proof.
  intros Hq Hget.
  destruct (serve_cases q db)
    as [->|[(now & fields & s & p & _ & _ & _ & _ & Hfresh & ->)
       |[(todo_id & todo' & -> & _ & ->)
        |(todo_id & req & todo' & t & _ & Hget' & (Ht & _) & ->)]]].
  - by exists todo.
  - exists todo. split; [|done]. rewrite lookup_insert_ne; [done|congruence].
  - exists todo. split; [|done]. by rewrite lookup_delete_ne.
  - destruct (decide (Z.of_N todo_id = i)) as [<-|Hi].
    + exists t. rewrite lookup_insert_eq. split; [done|]. congruence.
    + exists todo. by rewrite lookup_insert_ne.
Qed.

End Histories.

(** X12: a request that is answered with an error status leaves the store
    exactly as it was, on every route: nothing is written by a request
    that fails. *)
Theorem error_keeps_store `{Platform} (q : request) (db : table) :
  400 ≤ status (serve q db).1 → (serve q db).2 = db.
Proof.
  destruct q as [|now req|todo_id|todo_id req]; unfold serve, route.
  - by rewrite get_todos_run.
  - destruct (add_todo_cases now db req)
      as [[e ->]|(fields & s & p & _ & _ & _ & _ & ->)]; [done|].
    cbn. lia.
  - destruct (db !! Z.of_N todo_id) as [todo|] eqn:Hget.
    + rewrite (delete_todo_found db _ todo Hget). cbn. lia.
    + by rewrite (delete_todo_missing db _ Hget).
  - destruct (db !! Z.of_N todo_id) as [todo|] eqn:Hget.
    + destruct (update_todo_result db _ todo req Hget)
        as [[e ->]|(t & -> & Ht)]; [done|]. cbn. lia.
    + by rewrite (update_todo_missing db _ req Hget).
Qed.

Lemma error_keeps_store_witness :
  (serve (H := cpython_sqlite)
     (PUT_todo 1 (Some (JObj [("content", JStr "x"); ("priority", JNull)])))
     one_task).2
  = one_task.
Proof.
  apply (error_keeps_store (H := cpython_sqlite)). change (400 ≤ 400). lia.
Defined.

(** X13: after any sequence of requests on an empty store, the content of
    every stored task is non-empty and trimmed: trimming it again changes
    nothing, and it neither starts nor ends with a whitespace character. *)
Theorem stored_contents_trimmed `{Platform} (qs : list request) i todo :
  serve_all qs ∅ !! i = Some todo →
  content todo ≠ ""
  ∧ Py.strip (content todo) = content todo
  ∧ ∀ c, Py.isspace c = true →
         (∀ r, content todo ≠ String c r)
         ∧ (∀ r, content todo ≠ r +:+ String c "").
Proof.
  intros Hl.
  destruct (serve_all_contents_ok qs ∅) with (i := i) (todo := todo)
    as [Hne Htrim]; [by intros ? ? ?%lookup_empty_Some|done|].
  repeat split; try done; rewrite <- Htrim; by apply strip_ends.
Qed.

Lemma stored_contents_trimmed_witness :
  let todo := {| content := "water the plants"; priority := "medium";
                 created_at := 10 |} in
  serve_all (H := cpython_sqlite) example_history ∅ !! 1 = Some todo
  ∧ Py.strip (content todo) = content todo.
Proof.
  intros todo. split; [reflexivity|].
  apply (stored_contents_trimmed (H := cpython_sqlite) example_history 1 todo).
  reflexivity.
Defined.

(** X14: over any sequence of requests that does not delete it, a task
    stays in the store under its id and keeps its [created_at]: no create
    and no update, accepted or refused, touches the creation time. *)
Theorem created_at_immutable `{Platform} (qs : list request) (db : table) i todo :
  db !! i = Some todo →
  Forall (keeps_task i) qs →
  ∃ t, serve_all qs db !! i = Some t ∧ created_at t = created_at todo.
Proof.
  revert db todo. induction qs as [|q qs IH]; intros db todo Hget Hqs.
  - by exists todo.
  - apply Forall_cons in Hqs as [Hq Hqs]. rewrite serve_all_cons.
    destruct (serve_keeps_task q db i todo Hq Hget) as (t & Ht & Hat).
    destruct (IH _ t Ht Hqs) as (t' & Ht' & Hat'). exists t'. split; [done|].
    congruence.
Qed.

Lemma created_at_immutable_witness :
  ∃ t, serve_all (H := cpython_sqlite) example_history one_task !! 1 = Some t
       ∧ created_at t = 5.
Proof.
  apply (created_at_immutable (H := cpython_sqlite) example_history one_task 1
           {| content := "write report"; priority := "low"; created_at := 5 |}).
  - reflexivity.
  - repeat constructor. cbn. lia.
Defined.

(** X15: the priority invariant fails through create only: after any
    sequence of requests on an empty store in which no create request
    carries a priority other than high, medium or low, every stored task
    has a non-empty content and one of the three priorities. *)
Theorem checked_creates_keep_store_ok `{Platform} (qs : list request) :
  Forall checked_priority qs → store_ok (serve_all qs ∅).
Proof.
  assert (∀ db, Forall checked_priority qs → store_ok db →
                store_ok (serve_all qs db)) as Hgen.
  { induction qs as [|q qs IH]; intros db Hqs Hdb; [done|].
    apply Forall_cons in Hqs as [Hq Hqs]. rewrite serve_all_cons.
    by apply IH, serve_store_ok. }
  intros Hqs. apply Hgen; [done|]. by intros ? ? ?%lookup_empty_Some.
Qed.

Lemma checked_creates_keep_store_ok_witness :
  store_ok (serve_all (H := cpython_sqlite) example_history ∅).
Proof.
  apply (checked_creates_keep_store_ok (H := cpython_sqlite)).
  unfold example_history.
  constructor; [intros fields p [= <-] Hp; discriminate Hp|].
  constructor; [intros fields p [= <-] [= <-]; set_solver|].
  repeat (constructor; [exact I|]). constructor.
Defined.

(** ** The assistant, continued *)

(** X16: an assistant request makes at most one call to the model, and
    none unless the assistant is available; the answer is a 200, 400, 500
    or 503, and a 200 comes only after a call. *)
Theorem get_ai_response_one_call `{Platform} (available : bool)
    (model : option (string → outcome string)) (req : option json) :
  let '(r, sent) := run_assistant (get_ai_response available model req) in
  (length sent ≤ 1)%nat
  ∧ (sent ≠ [] → available = true ∧ is_Some model)
  ∧ (status r = 200 ∨ status r = 400 ∨ status r = 500 ∨ status r = 503)
  ∧ (status r = 200 → length sent = 1%nat).
Proof.
  assert (∀ (e : payload) (code : Z),
            code = 400 ∨ code = 500 ∨ code = 503 →
            (length (@nil string) ≤ 1)%nat
            ∧ (@nil string ≠ [] → available = true ∧ is_Some model)
            ∧ (status (jsonify e code) = 200 ∨ status (jsonify e code) = 400
               ∨ status (jsonify e code) = 500 ∨ status (jsonify e code) = 503)
            ∧ (status (jsonify e code) = 200 → length (@nil string) = 1%nat))
    as Hquiet.
  { intros e code Hcode. cbn [status jsonify length].
    split; [lia|]. split; [done|]. split; lia. }
  destruct available; [|rewrite get_ai_response_unavailable; apply Hquiet; lia].
  destruct req as [[| | | | |fields]|].
  6: { rewrite get_ai_response_available.
       destruct (Py.truthy _); [|apply Hquiet; lia].
       destruct model as [generate|]; [|apply Hquiet; lia].
       destruct (generate _); cbn [status jsonify length];
         (split; [lia|]; split; [by split; [|eexists]|]; split; [lia|done]). }
  all: match goal with
       | |- context [get_ai_response true ?m ?q] =>
           destruct (get_ai_response_no_object m q) as [e ->];
             [by intros fields [=]|apply Hquiet; lia]
       end.
Qed.

(** X17: when the model raises, the assistant answers 500 with that
    exception; the prompt was sent once and is not sent again. *)
Theorem get_ai_response_upstream_error `{Platform}
    (generate : string → outcome string) fields user_input e :
  Py.lookup "input" fields = Some user_input →
  Py.truthy user_input = true →
  generate (prompt_prefix +:+ format_value user_input) = Raise e →
  run_assistant (get_ai_response true (Some generate) (Some (JObj fields)))
  = (jsonify (ErrorOf e) 500, [prompt_prefix +:+ format_value user_input]).
Proof.
  intros Hl Ht He. rewrite get_ai_response_available, Hl. cbn [from_option id].
  by rewrite Ht, He.
Qed.

Lemma get_ai_response_upstream_error_witness :
  run_assistant
    (get_ai_response (H := cpython_sqlite) true
       (Some (λ _, Raise (UpstreamError "quota exceeded")))
       (Some (JObj [("input", JStr "plan my day")])))
  = (jsonify (ErrorOf (UpstreamError "quota exceeded")) 500,
     [prompt_prefix +:+ "plan my day"]).
Proof.
  apply (get_ai_response_upstream_error (H := cpython_sqlite)
           (λ _, Raise (UpstreamError "quota exceeded"))
           [("input", JStr "plan my day")] (JStr "plan my day")
           (UpstreamError "quota exceeded")); reflexivity.
Defined.

(** X18: the emptiness test is Python's truth value, so an input that is
    null, false, 0, an empty array or an empty object is treated like the
    empty string: the answer is the 400 and nothing is sent. *)
Theorem get_ai_response_falsy_input `{Platform}
    (model : option (string → outcome string)) fields user_input :
  Py.lookup "input" fields = Some user_input →
  user_input ∈ [JNull; JBool false; JNum 0; JStr ""; JArr []; JObj []] →
  run_assistant (get_ai_response true model (Some (JObj fields)))
  = (jsonify (ErrorMsg "Empty input") 400, []).
Proof.
  intros Hl Hv. rewrite get_ai_response_available, Hl. cbn [from_option id].
  repeat (apply elem_of_cons in Hv as [->|Hv]; [reflexivity|]).
  by apply not_elem_of_nil in Hv.
Qed.

Lemma get_ai_response_falsy_input_witness :
  run_assistant
    (get_ai_response (H := cpython_sqlite) true (Some (λ p, Ok p))
       (Some (JObj [("input", JNum 0)])))
  = (jsonify (ErrorMsg "Empty input") 400, []).
Proof.
  apply (get_ai_response_falsy_input (H := cpython_sqlite) (Some (λ p, Ok p))
           [("input", JNum 0)] (JNum 0) eq_refl).
  do 2 apply list_elem_of_further. apply list_elem_of_here.
Defined.

(** X19: an assistant request without a JSON object as body (no body, or
    a JSON value of another kind) is answered 500, not 400, and nothing is
    sent to the model. *)
Theorem get_ai_response_bad_body `{Platform}
    (model : option (string → outcome string)) (req : option json) :
  (∀ fields, req ≠ Some (JObj fields)) →
  ∃ e, run_assistant (get_ai_response true model req) = (jsonify (ErrorOf e) 500, []).
Proof.
  intros Hreq. destruct req as [data|]; [|by eexists].
  destruct data; try by eexists. by destruct (Hreq fields).
Qed.

Lemma get_ai_response_bad_body_witness :
  ∃ e,
    run_assistant
      (get_ai_response (H := cpython_sqlite) true (Some (λ p, Ok p))
         (Some (JArr [JStr "input"])))
    = (jsonify (ErrorOf e) 500, []).
Proof.
  apply (get_ai_response_bad_body (H := cpython_sqlite)). intros fields [=].
Defined.

(** ** Startup *)

(** X20: the two globals of the configuration agree, and the assistant is
    on exactly when the key is present and not empty and the client
    accepts it. Without a key, with an empty key or with a client that
    raises, every assistant request is answered 503 and nothing is sent. *)
Theorem configure_gemini_off `{Platform} (GOOGLE_API_KEY : option string)
    (client : string → outcome (string → outcome string)) :
  let '(available, model) := configure_gemini GOOGLE_API_KEY client in
  (available = true ↔ is_Some model)
  ∧ (available = true
     ↔ ∃ key generate, GOOGLE_API_KEY = Some key ∧ key ≠ ""
                       ∧ client key = Ok generate)
  ∧ (available = false →
     ∀ req, assistant GOOGLE_API_KEY client req
            = (jsonify (ErrorMsg "AI assistant is not available") 503, [])).
Proof.
  unfold assistant, configure_gemini.
  destruct GOOGLE_API_KEY as [key|].
  - case_bool_decide as Hkey.
    + split; [split; [done|by intros [? ?]]|]. split; [|done].
      split; [done|]. intros (k & g & [= <-] & Hk & _). done.
    + destruct (client key) as [generate|e] eqn:Hc.
      * split; [split; [by eexists|done]|]. split; [|done].
        split; [|done]. intros _. by exists key, generate.
      * split; [split; [done|by intros [? ?]]|]. split; [|done].
        split; [done|]. intros (k & g & [= <-] & _ & Hg). congruence.
  - split; [split; [done|by intros [? ?]]|]. split; [|done].
    split; [done|]. by intros (k & g & [=] & _).
Qed.
